(** * CTerminalHelpers: the window-size helper

    The C source is one function,

      int terminal_set_winsize(int fd, const struct winsize *ws) {
        return ioctl(fd, TIOCSWINSZ, ws);
      }

    It is embedded as a program over the operations a C function of this
    shape can perform (a control call into the operating system, a read or
    a write through a pointer, an assertion), run against an explicit
    system state.  The operating system is not part of the repository: the
    theorems about the wrapper alone quantify over every implementation of
    the control call, the others use a small kernel written after the
    specification. *)

From Stdlib Require Import ZArith List Lia.
From stdpp Require Import base option gmap.

Local Open Scope Z_scope.

(** ** Data *)

(** [struct winsize] of <sys/ioctl.h>: four [unsigned short] fields. *)
Record winsize : Type := Winsize {
  ws_row : Z;
  ws_col : Z;
  ws_xpixel : Z;
  ws_ypixel : Z
}.

(** What an open descriptor refers to: a terminal-class device (terminal or
    pseudo-terminal, named by its device number) or anything else. *)
Inductive file : Type :=
| FTerminal (dev : nat)
| FOther.

(** The state a call runs in.  [sys_errno] and [sys_memory] belong to the
    calling process (the memory holds the [struct winsize] objects the
    caller built, by address; an address absent from it is an invalid
    pointer).  [sys_files] is the
    descriptor table and [sys_terminals] the window-size record the kernel
    holds for each terminal device. *)
Record system : Type := System {
  sys_errno : Z;
  sys_memory : gmap Z winsize;
  sys_files : gmap nat file;
  sys_terminals : gmap nat winsize
}.

Definition set_errno (e : Z) (s : system) : system :=
  System e (sys_memory s) (sys_files s) (sys_terminals s).

Definition set_terminals (t : gmap nat winsize) (s : system) : system :=
  System (sys_errno s) (sys_memory s) (sys_files s) t.

Definition set_memory (m : gmap Z winsize) (s : system) : system :=
  System (sys_errno s) m (sys_files s) (sys_terminals s).

(** ** Programs *)

(** The operations of a C function body, in continuation style. *)
Inductive prog (A : Type) : Type :=
| Return (a : A)
| CallIoctl (fd request argp : Z) (k : Z -> prog A)
| Load (p : Z) (k : winsize -> prog A)
| Store (p : Z) (v : winsize) (k : prog A)
| Assert (b : bool) (k : prog A).

Arguments Return {A} a.
Arguments CallIoctl {A} fd request argp k.
Arguments Load {A} p k.
Arguments Store {A} p v k.
Arguments Assert {A} b k.

Fixpoint bind {A B : Type} (c : prog A) (f : A -> prog B) : prog B :=
  match c with
  | Return a => f a
  | CallIoctl fd request argp k => CallIoctl fd request argp (fun r => bind (k r) f)
  | Load p k => Load p (fun v => bind (k v) f)
  | Store p v k => Store p v (bind k f)
  | Assert b k => Assert b (bind k f)
  end.

Notation "'call' x <- c ; k" := (bind c (fun x => k))
  (at level 10, x name, c at level 100, k at level 200).

(** What a run does, in order. *)
Inductive event : Type :=
| EvIoctl (fd request argp : Z)
| EvLoad (p : Z)
| EvStore (p : Z) (v : winsize)
| EvAssert (b : bool).

(** How a run ends: with a value in a final state, or abnormally (a read
    or write through an unmapped pointer, a failed assertion). *)
Inductive outcome (A : Type) : Type :=
| Done (a : A) (s : system)
| Fault.

Arguments Done {A} a s.
Arguments Fault {A}.

(** The control call as libc offers it: it always returns, with a value
    and a new state; an error is the value -1 with [sys_errno] set. *)
Definition handler : Type := Z -> Z -> Z -> system -> Z * system.

Definition logged {A : Type} (e : event) (r : list event * outcome A)
  : list event * outcome A :=
  (e :: fst r, snd r).

Fixpoint exec {A : Type} (os : handler) (c : prog A) (s : system)
  : list event * outcome A :=
  match c with
  | Return a => ([], Done a s)
  | CallIoctl fd request argp k =>
      let r := os fd request argp s in
      logged (EvIoctl fd request argp) (exec os (k (fst r)) (snd r))
  | Load p k =>
      match sys_memory s !! p with
      | Some v => logged (EvLoad p) (exec os (k v) s)
      | None => ([EvLoad p], Fault)
      end
  | Store p v k =>
      match sys_memory s !! p with
      | Some _ => logged (EvStore p v) (exec os k (set_memory (<[p := v]> (sys_memory s)) s))
      | None => ([EvStore p v], Fault)
      end
  | Assert b k =>
      if b then logged (EvAssert b) (exec os k s) else ([EvAssert b], Fault)
  end.

Definition trace {A : Type} (os : handler) (c : prog A) (s : system) : list event :=
  fst (exec os c s).

Definition result {A : Type} (os : handler) (c : prog A) (s : system) : outcome A :=
  snd (exec os c s).

(** [ioctl(fd, request, argp)] as an expression. *)
Definition ioctl (fd request argp : Z) : prog Z :=
  CallIoctl fd request argp Return.

(** Classification of the events, for statements about what a run does
    not do. *)
Definition is_ioctl (e : event) : bool :=
  match e with EvIoctl _ _ _ => true | _ => false end.

Definition is_store (e : event) : bool :=
  match e with EvStore _ _ => true | _ => false end.

(** [errno] values of <errno.h> (the same on Linux and on macOS). *)
Definition EBADF : Z := 9.
Definition EFAULT : Z := 14.
Definition ENOTTY : Z := 25.

(** The contract's result type, [Result<(), OsError>]. *)
Inductive os_result : Type :=
| Success
| OsError (code : Z).

(** Modelled from the spec: the caller's reading of the wrapper's [int] as
    that result, which the repository does not contain.  It follows the C
    convention of the control call: failure is the value -1 and the code is
    then read from [errno]. *)
Definition as_result (r : Z) (s : system) : os_result :=
  if Z.eqb r (-1) then OsError (sys_errno s) else Success.

(** Descriptors are non-negative indices into the descriptor table. *)
Definition fd_lookup (fd : Z) (s : system) : option file :=
  if Z.ltb fd 0 then None else sys_files s !! Z.to_nat fd.

Definition fail (e : Z) (s : system) : Z * system :=
  (-1, set_errno e s).

(** Modelled from the spec: the geometry query on a descriptor, which the
    repository does not contain; it reads the window-size record the kernel
    holds for the device the descriptor refers to. *)
Definition kernel_winsize (fd : Z) (s : system) : option winsize :=
  match fd_lookup fd s with
  | Some (FTerminal dev) => sys_terminals s !! dev
  | _ => None
  end.

(** A state used in the examples: descriptor 3 is a regular file,
    descriptors 4 and 5 are the two ends of a pseudo-terminal (device 0,
    80x24), and the caller holds two geometries in memory. *)
Definition demo_system : system :=
  System 0
    (<[4096 := Winsize 40 120 0 0]> (<[4104 := Winsize 24 80 0 0]> ∅))
    (<[3%nat := FOther]> (<[4%nat := FTerminal 0]> (<[5%nat := FTerminal 0]> ∅)))
    (<[0%nat := Winsize 24 80 0 0]> ∅).

(** The example state after descriptor 4 or 5 was given the geometry held
    at address 4096. *)
Definition demo_resized : system :=
  set_terminals (<[0%nat := Winsize 40 120 0 0]> (sys_terminals demo_system))
    demo_system.

(** Modelled from the spec: what the kernel keeps about terminals beside
    the window-size records, none of it in the repository.  [ts_foreground]
    gives, for a terminal device, the process group that owns it as its
    controlling terminal, if any (for a pseudo-terminal: the group attached
    to the slave side); [ts_notified] lists the window-change notifications
    the kernel has sent, by receiving process group, oldest first. *)
Record tty_system : Type := TtySystem {
  ts_system : system;
  ts_foreground : gmap nat nat;
  ts_notified : list nat
}.

Definition tty_handler : Type := Z -> Z -> Z -> tty_system -> Z * tty_system.

Inductive tty_outcome (A : Type) : Type :=
| TtyDone (a : A) (s : tty_system)
| TtyFault.

Arguments TtyDone {A} a s.
Arguments TtyFault {A}.

Definition on_system (f : system -> system) (s : tty_system) : tty_system :=
  TtySystem (f (ts_system s)) (ts_foreground s) (ts_notified s).

(** [exec] over the larger state: the program is run as before, the
    process's memory being that of [ts_system]. *)
Fixpoint exec_tty {A : Type} (os : tty_handler) (c : prog A) (s : tty_system)
  : list event * tty_outcome A :=
  match c with
  | Return a => ([], TtyDone a s)
  | CallIoctl fd request argp k =>
      let r := os fd request argp s in
      let r' := exec_tty os (k (fst r)) (snd r) in
      (EvIoctl fd request argp :: fst r', snd r')
  | Load p k =>
      match sys_memory (ts_system s) !! p with
      | Some v => let r' := exec_tty os (k v) s in (EvLoad p :: fst r', snd r')
      | None => ([EvLoad p], TtyFault)
      end
  | Store p v k =>
      match sys_memory (ts_system s) !! p with
      | Some _ =>
          let r' := exec_tty os k
                      (on_system (fun b => set_memory (<[p := v]> (sys_memory b)) b) s) in
          (EvStore p v :: fst r', snd r')
      | None => ([EvStore p v], TtyFault)
      end
  | Assert b k =>
      if b then let r' := exec_tty os k s in (EvAssert b :: fst r', snd r')
      else ([EvAssert b], TtyFault)
  end.

(** The process group a notification about device [dev] goes to, if any. *)
Definition owner (dev : nat) (s : tty_system) : list nat :=
  match ts_foreground s !! dev with
  | Some pg => [pg]
  | None => []
  end.

(** The example state with its pseudo-terminal owned by process group 77
    (a shell on the slave side, descriptor 5; descriptor 4 is the master),
    and nothing notified yet. *)
Definition demo_tty : tty_system :=
  TtySystem demo_system (<[0%nat := 77%nat]> ∅) [].

(** Two values of the request code: Linux (0x5414) and macOS
    (_IOW('t', 103, struct winsize) = 0x80087467). *)
Definition TIOCSWINSZ_linux : Z := 21524.
Definition TIOCSWINSZ_macos : Z := 2148037735.

(** ** The source *)

Section Wrapper.

(** The request code comes from <sys/ioctl.h> and differs between
    platforms. *)
Variable TIOCSWINSZ : Z.

(** [int terminal_set_winsize(int fd, const struct winsize *ws)] *)
Definition terminal_set_winsize (fd ws : Z) : prog Z :=
  ioctl fd TIOCSWINSZ ws.

(** [SetWindowSize] of the contract: the wrapper's [int] read as a
    [Result]; [None] stands for a run that does not return. *)
Definition SetWindowSize (os : handler) (fd ws : Z) (s : system)
  : option (os_result * system) :=
  match result os (terminal_set_winsize fd ws) s with
  | Done r s' => Some (as_result r s', s')
  | Fault => None
  end.

(** Earlier use of the component: any number of calls of the wrapper, with
    any arguments, their values dropped. *)
Fixpoint earlier_calls (h : list (Z * Z)) : prog unit :=
  match h with
  | [] => Return tt
  | (fd, ws) :: h' => call _ <- terminal_set_winsize fd ws; earlier_calls h'
  end.

(** The control calls a sequence of wrapper calls stands for, one per
    call, in order. *)
Definition control_calls (h : list (Z * Z)) : list event :=
  map (fun a => EvIoctl (fst a) TIOCSWINSZ (snd a)) h.

(** The state the operating system is left in after answering them one
    after the other. *)
Definition state_after (os : handler) (h : list (Z * Z)) (s : system) : system :=
  fold_left (fun s' a => snd (os (fst a) TIOCSWINSZ (snd a) s')) h s.

(** The specification's words for the operation: the single underlying
    window-size-set control call on the same arguments, and nothing else. *)
Definition control_call_alone (os : handler) (fd ws : Z) (s : system)
  : list event * outcome Z :=
  ([EvIoctl fd TIOCSWINSZ ws],
   Done (fst (os fd TIOCSWINSZ ws s)) (snd (os fd TIOCSWINSZ ws s))).

(** Modelled from the spec: the operating system's control call, which the
    repository does not contain.  The call fails with the platform's code
    when the descriptor is invalid (not open), when it is not a terminal
    device, or when the kernel otherwise rejects the operation (here: a
    request it does not know, a geometry it cannot read); a failure changes
    no geometry.  Otherwise the kernel's window-size record of the device is
    replaced by the geometry passed, and the call returns 0. *)
Definition kernel_ioctl : handler :=
  fun fd request argp s =>
    match fd_lookup fd s with
    | None => fail EBADF s
    | Some FOther => fail ENOTTY s
    | Some (FTerminal dev) =>
        if Z.eqb request TIOCSWINSZ then
          match sys_memory s !! argp with
          | None => fail EFAULT s
          | Some g => (0, set_terminals (<[dev := g]> (sys_terminals s)) s)
          end
        else fail ENOTTY s
    end.

(** Modelled from the spec: the control call with its second side effect.
    It answers and changes [ts_system] as [kernel_ioctl] does, and when it
    has updated the window-size record of a device (it returned 0) the
    kernel sends a window-change notification to the process group that
    owns that device as controlling terminal, if any. *)
Definition tty_ioctl : tty_handler :=
  fun fd request argp s =>
    let r := kernel_ioctl fd request argp (ts_system s) in
    let sent :=
      match fd_lookup fd (ts_system s) with
      | Some (FTerminal dev) => if Z.eqb (fst r) 0 then owner dev s else []
      | _ => []
      end in
    (fst r, TtySystem (snd r) (ts_foreground s) (ts_notified s ++ sent)).

(** [SetWindowSize] run against that kernel. *)
Definition SetWindowSize_tty (fd ws : Z) (s : tty_system)
  : option (os_result * tty_system) :=
  match snd (exec_tty tty_ioctl (terminal_set_winsize fd ws) s) with
  | TtyDone r s' => Some (as_result r (ts_system s'), s')
  | TtyFault => None
  end.

(** ** The wrapper against any operating system *)

Lemma exec_terminal_set_winsize (os : handler) (fd ws : Z) (s : system) :
  exec os (terminal_set_winsize fd ws) s =
  ([EvIoctl fd TIOCSWINSZ ws],
   Done (fst (os fd TIOCSWINSZ ws s)) (snd (os fd TIOCSWINSZ ws s))).
Proof. reflexivity. Qed.

Lemma trace_terminal_set_winsize (os : handler) (fd ws : Z) (s : system) :
  trace os (terminal_set_winsize fd ws) s = [EvIoctl fd TIOCSWINSZ ws].
Proof. unfold trace. now rewrite exec_terminal_set_winsize. Qed.

Lemma result_terminal_set_winsize (os : handler) (fd ws : Z) (s : system) :
  result os (terminal_set_winsize fd ws) s =
  Done (fst (os fd TIOCSWINSZ ws s)) (snd (os fd TIOCSWINSZ ws s)).
Proof. unfold result. now rewrite exec_terminal_set_winsize. Qed.

Lemma SetWindowSize_unfold (os : handler) (fd ws : Z) (s : system) :
  SetWindowSize os fd ws s =
  Some (as_result (fst (os fd TIOCSWINSZ ws s)) (snd (os fd TIOCSWINSZ ws s)),
        snd (os fd TIOCSWINSZ ws s)).
Proof. unfold SetWindowSize. now rewrite result_terminal_set_winsize. Qed.

(** Running a sequence: the second program starts where the first ends. *)
Lemma exec_bind {A B : Type} (os : handler) (c : prog A) (f : A -> prog B)
    (s : system) :
  exec os (bind c f) s =
  match exec os c s with
  | (t, Done a s') => (t ++ fst (exec os (f a) s'), snd (exec os (f a) s'))
  | (t, Fault) => (t, Fault)
  end.
Proof.
  revert s. induction c as [a | fd rq p k IH | p k IH | p v k IH | b k IH];
    intros s; simpl.
  - now destruct (exec os (f a) s).
  - rewrite IH. unfold logged.
    now destruct (exec os (k (fst (os fd rq p s))) (snd (os fd rq p s))) as [t [a s'|]].
  - destruct (sys_memory s !! p) as [v|]; [|reflexivity].
    rewrite IH. unfold logged. now destruct (exec os (k v) s) as [t [a s'|]].
  - destruct (sys_memory s !! p) as [v0|]; [|reflexivity].
    rewrite IH. unfold logged.
    now destruct (exec os k _) as [t [a s'|]].
  - destruct b; [|reflexivity].
    rewrite IH. unfold logged. now destruct (exec os k s) as [t [a s'|]].
Qed.

Lemma exec_then_terminal_set_winsize {A : Type} (os : handler) (c : prog A)
    (fd ws : Z) (s s' : system) (t : list event) (a : A) :
  exec os c s = (t, Done a s') ->
  exec os (call _ <- c; terminal_set_winsize fd ws) s =
  (t ++ [EvIoctl fd TIOCSWINSZ ws],
   Done (fst (os fd TIOCSWINSZ ws s')) (snd (os fd TIOCSWINSZ ws s'))).
Proof.
  intros H. rewrite exec_bind, H, exec_terminal_set_winsize. reflexivity.
Qed.

(** Earlier calls always return, and consist of control calls only. *)
Lemma exec_earlier_calls (os : handler) (h : list (Z * Z)) (s : system) :
  exists (t : list event) (s' : system),
    exec os (earlier_calls h) s = (t, Done tt s') /\
    Forall (fun e => is_ioctl e = true) t.
Proof.
  revert s. induction h as [|[fd ws] h IH]; intros s.
  - exists [], s. split; [reflexivity | constructor].
  - destruct (IH (snd (os fd TIOCSWINSZ ws s))) as (t & s' & Ht & Hio).
    exists (EvIoctl fd TIOCSWINSZ ws :: t), s'. split.
    + cbn [earlier_calls]. rewrite exec_bind, exec_terminal_set_winsize.
      cbn [fst snd]. rewrite Ht. reflexivity.
    + constructor; [reflexivity | exact Hio].
Qed.

(** ** The kernel of the specification *)

Lemma kernel_ioctl_set (fd ws : Z) (dev : nat) (g : winsize) (s : system) :
  fd_lookup fd s = Some (FTerminal dev) ->
  sys_memory s !! ws = Some g ->
  kernel_ioctl fd TIOCSWINSZ ws s =
  (0, set_terminals (<[dev := g]> (sys_terminals s)) s).
Proof.
  intros Hfd Hws. unfold kernel_ioctl.
  now rewrite Hfd, Z.eqb_refl, Hws.
Qed.

Lemma kernel_ioctl_invalid (fd request ws : Z) (s : system) :
  fd_lookup fd s = None ->
  kernel_ioctl fd request ws s = fail EBADF s.
Proof. intros Hfd. unfold kernel_ioctl. now rewrite Hfd. Qed.

(** Every call either applies the geometry or fails with some code and
    changes nothing but [errno]. *)
Lemma kernel_ioctl_cases (fd request ws : Z) (s : system) :
  (exists dev g,
      fd_lookup fd s = Some (FTerminal dev) /\
      sys_memory s !! ws = Some g /\
      kernel_ioctl fd request ws s =
      (0, set_terminals (<[dev := g]> (sys_terminals s)) s)) \/
  (exists e, kernel_ioctl fd request ws s = fail e s).
Proof.
  unfold kernel_ioctl.
  destruct (fd_lookup fd s) as [[dev|]|] eqn:Hfd; [|right; eauto..].
  destruct (Z.eqb request TIOCSWINSZ); [|right; eauto].
  destruct (sys_memory s !! ws) as [g|] eqn:Hws; [|right; eauto].
  left. exists dev, g. auto.
Qed.

Lemma kernel_ioctl_memory (fd request ws : Z) (s : system) :
  sys_memory (snd (kernel_ioctl fd request ws s)) = sys_memory s.
Proof.
  destruct (kernel_ioctl_cases fd request ws s) as [(dev & g & _ & _ & ->)|[e ->]];
    reflexivity.
Qed.

Lemma kernel_ioctl_files (fd request ws : Z) (s : system) :
  sys_files (snd (kernel_ioctl fd request ws s)) = sys_files s.
Proof.
  destruct (kernel_ioctl_cases fd request ws s) as [(dev & g & _ & _ & ->)|[e ->]];
    reflexivity.
Qed.

Lemma fd_lookup_files (fd : Z) (s1 s2 : system) :
  sys_files s1 = sys_files s2 -> fd_lookup fd s1 = fd_lookup fd s2.
Proof. intros H. unfold fd_lookup. now rewrite H. Qed.

(** The kernel's answer depends on the descriptor table, the window-size
    records and the geometry passed, and on nothing else of the process. *)
Lemma kernel_ioctl_local (fd request ws1 ws2 : Z) (s1 s2 : system) :
  sys_files s1 = sys_files s2 ->
  sys_terminals s1 = sys_terminals s2 ->
  sys_memory s1 !! ws1 = sys_memory s2 !! ws2 ->
  fst (kernel_ioctl fd request ws1 s1) = fst (kernel_ioctl fd request ws2 s2) /\
  as_result (fst (kernel_ioctl fd request ws1 s1)) (snd (kernel_ioctl fd request ws1 s1)) =
  as_result (fst (kernel_ioctl fd request ws2 s2)) (snd (kernel_ioctl fd request ws2 s2)) /\
  sys_terminals (snd (kernel_ioctl fd request ws1 s1)) =
  sys_terminals (snd (kernel_ioctl fd request ws2 s2)).
Proof.
  intros Hf Ht Hg.
  pose proof (fd_lookup_files fd s1 s2 Hf) as Hfd.
  unfold kernel_ioctl. rewrite <- Hfd, <- Hg.
  destruct (fd_lookup fd s1) as [[dev|]|]; [|repeat split; auto..].
  destruct (Z.eqb request TIOCSWINSZ); [|repeat split; auto].
  destruct (sys_memory s1 !! ws1) as [g|]; repeat split; auto.
  simpl. now rewrite Ht.
Qed.

(** ** The claims *)

(** C1. Whatever the operating system does, [SetWindowSize] succeeds when
    the control call succeeds and otherwise fails with an [OsError] whose
    code is the [errno] the failed control call left; the call is made
    once, the wrapper ends in the state the call ended in, and it neither
    retries nor recovers. *)
Theorem set_window_size_passes_error_through
    (os : handler) (fd ws : Z) (s : system) :
  trace os (terminal_set_winsize fd ws) s = [EvIoctl fd TIOCSWINSZ ws] /\
  SetWindowSize os fd ws s =
  Some (if Z.eqb (fst (os fd TIOCSWINSZ ws s)) (-1)
        then OsError (sys_errno (snd (os fd TIOCSWINSZ ws s)))
        else Success,
        snd (os fd TIOCSWINSZ ws s)).
Proof.
  split.
  - apply trace_terminal_set_winsize.
  - rewrite SetWindowSize_unfold. reflexivity.
Qed.

(** C6. For every descriptor and geometry pointer the wrapper runs exactly
    as the single control call ioctl(fd, TIOCSWINSZ, ws) does: the call is
    its first and only step (nothing is checked before it) and its value
    and final state are the call's. *)
Theorem terminal_set_winsize_is_control_call
    (os : handler) (fd ws : Z) (s : system) :
  exec os (terminal_set_winsize fd ws) s = control_call_alone os fd ws s.
Proof. unfold control_call_alone. apply exec_terminal_set_winsize. Qed.

(** C10. The wrapper returns for every descriptor (negative ones too) and
    every pointer (unmapped ones too): it performs no read, write or
    assertion of its own, only the control call, and its value is exactly
    what that call returned. *)
Theorem terminal_set_winsize_total (os : handler) (fd ws : Z) (s : system) :
  exists (r : Z) (s' : system),
    result os (terminal_set_winsize fd ws) s = Done r s' /\
    (r, s') = os fd TIOCSWINSZ ws s /\
    Forall (fun e => is_ioctl e = true) (trace os (terminal_set_winsize fd ws) s).
Proof.
  exists (fst (os fd TIOCSWINSZ ws s)), (snd (os fd TIOCSWINSZ ws s)).
  split; [apply result_terminal_set_winsize|].
  split; [now destruct (os fd TIOCSWINSZ ws s)|].
  rewrite trace_terminal_set_winsize. repeat constructor.
Qed.

(** C9. The wrapper itself never writes through [ws]: under any operating
    system, for every descriptor and pointer, its run contains no store and
    the caller's memory after it is the memory the control call left; so the
    caller's structure is unchanged by the wrapper whenever the call it
    forwards to leaves it unchanged. *)
Theorem terminal_set_winsize_keeps_caller_struct
    (os : handler) (fd ws : Z) (s : system) :
  Forall (fun e => is_store e = false) (trace os (terminal_set_winsize fd ws) s) /\
  exists (r : Z) (s' : system),
    result os (terminal_set_winsize fd ws) s = Done r s' /\
    sys_memory s' = sys_memory (snd (os fd TIOCSWINSZ ws s)) /\
    (sys_memory (snd (os fd TIOCSWINSZ ws s)) !! ws = sys_memory s !! ws ->
     sys_memory s' !! ws = sys_memory s !! ws).
Proof.
  split.
  - rewrite trace_terminal_set_winsize. repeat constructor.
  - eexists _, _. split; [apply result_terminal_set_winsize|].
    split; [reflexivity | intros H; exact H].
Qed.

(** C7. No state is kept across calls.  Take two runs that reach the same
    system state after arbitrary, different earlier calls of the wrapper:
    under any operating system, the call then made with the same descriptor
    and geometry gives the same result in both, namely the control call's
    answer in that state; and both runs, earlier calls included, consist of
    control calls only (no read or write of program state). *)
Theorem terminal_set_winsize_stateless
    (os : handler) (h1 h2 : list (Z * Z)) (fd ws : Z) (s1 s2 s : system) :
  result os (earlier_calls h1) s1 = Done tt s ->
  result os (earlier_calls h2) s2 = Done tt s ->
  result os (call _ <- earlier_calls h1; terminal_set_winsize fd ws) s1 =
  result os (call _ <- earlier_calls h2; terminal_set_winsize fd ws) s2 /\
  result os (call _ <- earlier_calls h1; terminal_set_winsize fd ws) s1 =
  Done (fst (os fd TIOCSWINSZ ws s)) (snd (os fd TIOCSWINSZ ws s)) /\
  Forall (fun e => is_ioctl e = true)
    (trace os (call _ <- earlier_calls h1; terminal_set_winsize fd ws) s1) /\
  Forall (fun e => is_ioctl e = true)
    (trace os (call _ <- earlier_calls h2; terminal_set_winsize fd ws) s2).
Proof.
  intros H1 H2.
  destruct (exec_earlier_calls os h1 s1) as (t1 & s1' & E1 & F1).
  destruct (exec_earlier_calls os h2 s2) as (t2 & s2' & E2 & F2).
  unfold result in H1, H2. rewrite E1 in H1. rewrite E2 in H2.
  cbn [snd] in H1, H2.
  assert (s1' = s) by congruence. assert (s2' = s) by congruence. subst s1' s2'.
  unfold result, trace.
  rewrite (exec_then_terminal_set_winsize os _ fd ws s1 s t1 tt E1).
  rewrite (exec_then_terminal_set_winsize os _ fd ws s2 s t2 tt E2).
  cbn [fst snd]. repeat split.
  - apply Forall_app. split; [exact F1 | repeat constructor].
  - apply Forall_app. split; [exact F2 | repeat constructor].
Qed.

(** C2. On a valid open pseudo-terminal descriptor [d], with a geometry [g]
    of non-negative fields, [SetWindowSize] succeeds and the geometry query
    on [d] afterwards returns exactly [g]. *)
Theorem set_window_size_then_query
    (d ws : Z) (dev : nat) (g : winsize) (s : system) :
  fd_lookup d s = Some (FTerminal dev) ->
  sys_memory s !! ws = Some g ->
  0 <= ws_row g -> 0 <= ws_col g -> 0 <= ws_xpixel g -> 0 <= ws_ypixel g ->
  exists s' : system,
    SetWindowSize kernel_ioctl d ws s = Some (Success, s') /\
    kernel_winsize d s' = Some g.
Proof.
  intros Hd Hws _ _ _ _.
  rewrite SetWindowSize_unfold, (kernel_ioctl_set d ws dev g s Hd Hws).
  eexists. split; [reflexivity|].
  unfold kernel_winsize.
  rewrite (fd_lookup_files d _ s) by reflexivity.
  rewrite Hd. simpl. apply lookup_insert_eq.
Qed.

(** C3. [SetWindowSize] is atomic on the kernel-held geometry: it either
    succeeds, and then the record of the device is the whole new geometry,
    or fails with an [OsError], and then every window-size record is as it
    was; on an invalid or closed descriptor it fails and no record
    changes. *)
Theorem set_window_size_atomic (fd ws : Z) (s : system) :
  exists (res : os_result) (s' : system),
    SetWindowSize kernel_ioctl fd ws s = Some (res, s') /\
    match res with
    | Success =>
        exists (dev : nat) (g : winsize),
          fd_lookup fd s = Some (FTerminal dev) /\
          sys_memory s !! ws = Some g /\
          sys_terminals s' = <[dev := g]> (sys_terminals s) /\
          kernel_winsize fd s' = Some g
    | OsError e =>
        e = sys_errno s' /\ sys_terminals s' = sys_terminals s
    end /\
    (fd_lookup fd s = None ->
     res = OsError EBADF /\ sys_terminals s' = sys_terminals s).
Proof.
  rewrite SetWindowSize_unfold.
  destruct (kernel_ioctl_cases fd TIOCSWINSZ ws s)
    as [(dev & g & Hfd & Hws & ->)|[e He]].
  - eexists _, _. split; [reflexivity|]. simpl. split.
    + exists dev, g. repeat split; auto.
      unfold kernel_winsize. rewrite (fd_lookup_files fd _ s) by reflexivity.
      rewrite Hfd. simpl. apply lookup_insert_eq.
    + intros Hnone. congruence.
  - rewrite He. eexists _, _. split; [reflexivity|]. simpl. split.
    + split; reflexivity.
    + intros Hnone. rewrite (kernel_ioctl_invalid fd TIOCSWINSZ ws s Hnone) in He.
      apply (f_equal (fun p => sys_errno (snd p))) in He. simpl in He.
      subst e. split; reflexivity.
Qed.

(** C4. Idempotence: on a valid open terminal descriptor, setting the same
    geometry twice in succession succeeds both times and ends with the
    kernel-held geometry (indeed the whole state) of a single call. *)
Theorem set_window_size_idempotent
    (d ws : Z) (dev : nat) (g : winsize) (s : system) :
  fd_lookup d s = Some (FTerminal dev) ->
  sys_memory s !! ws = Some g ->
  exists s1 : system,
    SetWindowSize kernel_ioctl d ws s = Some (Success, s1) /\
    SetWindowSize kernel_ioctl d ws s1 = Some (Success, s1) /\
    result kernel_ioctl
      (call r1 <- terminal_set_winsize d ws;
       call r2 <- terminal_set_winsize d ws;
       Return (r1, r2)) s = Done (0, 0) s1 /\
    kernel_winsize d s1 = Some g.
Proof.
  intros Hd Hws.
  set (s1 := set_terminals (<[dev := g]> (sys_terminals s)) s).
  assert (Hd1 : fd_lookup d s1 = Some (FTerminal dev))
    by (rewrite (fd_lookup_files d s1 s) by reflexivity; exact Hd).
  assert (Hws1 : sys_memory s1 !! ws = Some g) by exact Hws.
  assert (Hs1 : set_terminals (<[dev := g]> (sys_terminals s1)) s1 = s1).
  { unfold s1, set_terminals. simpl. now rewrite insert_insert_eq. }
  assert (H1 : kernel_ioctl d TIOCSWINSZ ws s = (0, s1))
    by apply (kernel_ioctl_set d ws dev g s Hd Hws).
  assert (H2 : kernel_ioctl d TIOCSWINSZ ws s1 = (0, s1))
    by (rewrite (kernel_ioctl_set d ws dev g s1 Hd1 Hws1); now rewrite Hs1).
  exists s1. split; [|split; [|split]].
  - now rewrite SetWindowSize_unfold, H1.
  - now rewrite SetWindowSize_unfold, H2.
  - unfold result. rewrite exec_bind, exec_terminal_set_winsize, H1.
    cbn [fst snd]. rewrite exec_bind, exec_terminal_set_winsize, H2.
    reflexivity.
  - unfold kernel_winsize. rewrite Hd1. apply lookup_insert_eq.
Qed.

(** C5. [SetWindowSize] on descriptor -1 with the geometry
    {rows 24, cols 80, xpixel 0, ypixel 0} fails, and the code of the
    [OsError] is the bad-descriptor code [EBADF]. *)
Theorem set_window_size_bad_descriptor (ws : Z) (s : system) :
  sys_memory s !! ws = Some (Winsize 24 80 0 0) ->
  SetWindowSize kernel_ioctl (-1) ws s = Some (OsError EBADF, set_errno EBADF s).
Proof.
  intros _. rewrite SetWindowSize_unfold.
  rewrite (kernel_ioctl_invalid (-1) TIOCSWINSZ ws s) by reflexivity.
  reflexivity.
Qed.

(** ** The window-change notification *)

Lemma exec_tty_terminal_set_winsize (os : tty_handler) (fd ws : Z) (s : tty_system) :
  exec_tty os (terminal_set_winsize fd ws) s =
  ([EvIoctl fd TIOCSWINSZ ws],
   TtyDone (fst (os fd TIOCSWINSZ ws s)) (snd (os fd TIOCSWINSZ ws s))).
Proof. reflexivity. Qed.

(** The larger kernel only adds to the smaller one: any program run against
    it makes the same steps, returns the same value and leaves the same
    [ts_system] as its run against [kernel_ioctl]; ownership of the
    terminals is not touched and no notification is ever withdrawn. *)
Lemma exec_tty_extends_exec {A : Type} (c : prog A) (s : tty_system) :
  fst (exec_tty tty_ioctl c s) = fst (exec kernel_ioctl c (ts_system s)) /\
  match snd (exec_tty tty_ioctl c s) with
  | TtyDone a s' =>
      snd (exec kernel_ioctl c (ts_system s)) = Done a (ts_system s') /\
      ts_foreground s' = ts_foreground s /\
      exists sent : list nat, ts_notified s' = ts_notified s ++ sent
  | TtyFault => snd (exec kernel_ioctl c (ts_system s)) = Fault
  end.
Proof.
  revert s. induction c as [a | fd rq p k IH | p k IH | p v k IH | b k IH];
    intros s; cbn [exec_tty exec logged fst snd].
  - split; [reflexivity|]. repeat split. exists []. now rewrite app_nil_r.
  - set (s1 := snd (tty_ioctl fd rq p s)).
    change (fst (tty_ioctl fd rq p s)) with (fst (kernel_ioctl fd rq p (ts_system s))).
    change (snd (kernel_ioctl fd rq p (ts_system s))) with (ts_system s1).
    destruct (IH (fst (kernel_ioctl fd rq p (ts_system s))) s1) as [Ht Hr].
    split; [now rewrite Ht|].
    destruct (snd (exec_tty tty_ioctl _ s1)) as [a s'|]; [|exact Hr].
    destruct Hr as (Hd & Hf & sent & Hn). repeat split; [exact Hd | exact Hf |].
    unfold s1 in Hn. cbn [tty_ioctl snd ts_notified] in Hn.
    eexists. rewrite Hn, <- app_assoc. reflexivity.
  - destruct (sys_memory (ts_system s) !! p) as [v|]; [|split; reflexivity].
    cbn [logged fst snd]. destruct (IH v s) as [Ht Hr].
    split; [now rewrite Ht | exact Hr].
  - destruct (sys_memory (ts_system s) !! p) as [v0|]; [|split; reflexivity].
    cbn [logged fst snd].
    destruct (IH (on_system (fun b => set_memory (<[p := v]> (sys_memory b)) b) s))
      as [Ht Hr].
    split; [now rewrite Ht | exact Hr].
  - destruct b; [|split; reflexivity].
    cbn [logged fst snd]. destruct (IH s) as [Ht Hr].
    split; [now rewrite Ht | exact Hr].
Qed.

Lemma SetWindowSize_tty_unfold (fd ws : Z) (s : tty_system) :
  SetWindowSize_tty fd ws s =
  Some (as_result (fst (tty_ioctl fd TIOCSWINSZ ws s))
          (ts_system (snd (tty_ioctl fd TIOCSWINSZ ws s))),
        snd (tty_ioctl fd TIOCSWINSZ ws s)).
Proof. unfold SetWindowSize_tty. now rewrite exec_tty_terminal_set_winsize. Qed.

(** What the control call does on an open terminal with a readable
    geometry. *)
Lemma tty_ioctl_set (fd ws : Z) (dev : nat) (g : winsize) (s : tty_system) :
  fd_lookup fd (ts_system s) = Some (FTerminal dev) ->
  sys_memory (ts_system s) !! ws = Some g ->
  tty_ioctl fd TIOCSWINSZ ws s =
  (0, TtySystem (set_terminals (<[dev := g]> (sys_terminals (ts_system s))) (ts_system s))
        (ts_foreground s) (ts_notified s ++ owner dev s)).
Proof.
  intros Hfd Hws. unfold tty_ioctl.
  rewrite (kernel_ioctl_set fd ws dev g (ts_system s) Hfd Hws), Hfd.
  reflexivity.
Qed.

(** A failed control call sends nothing. *)
Lemma tty_ioctl_fail (fd request ws e : Z) (s : tty_system) :
  kernel_ioctl fd request ws (ts_system s) = fail e (ts_system s) ->
  tty_ioctl fd request ws s = (-1, on_system (set_errno e) s).
Proof.
  intros H. unfold tty_ioctl. rewrite H. cbn [fail fst snd].
  replace (Z.eqb (-1) 0) with false by reflexivity.
  destruct (fd_lookup fd (ts_system s)) as [[dev|]|];
    unfold on_system; now rewrite app_nil_r.
Qed.

(** C8. Every successful [SetWindowSize] call has updated the kernel's
    window-size record of the device and has sent one window-change
    notification to the process group that owns the device as controlling
    terminal, if any (none is sent if there is none).  In particular a call
    on the master of a pseudo-terminal whose slave side has a process group
    attached succeeds, that group is sent the notification, and the slave
    side reports the new geometry. *)
Theorem set_window_size_notifies (fd ws : Z) (s : tty_system) :
  (forall s' : tty_system,
      SetWindowSize_tty fd ws s = Some (Success, s') ->
      exists (dev : nat) (g : winsize),
        fd_lookup fd (ts_system s) = Some (FTerminal dev) /\
        sys_memory (ts_system s) !! ws = Some g /\
        sys_terminals (ts_system s') = <[dev := g]> (sys_terminals (ts_system s)) /\
        kernel_winsize fd (ts_system s') = Some g /\
        ts_notified s' = ts_notified s ++ owner dev s) /\
  (forall (dev pg : nat) (g : winsize),
      fd_lookup fd (ts_system s) = Some (FTerminal dev) ->
      sys_memory (ts_system s) !! ws = Some g ->
      ts_foreground s !! dev = Some pg ->
      exists s' : tty_system,
        SetWindowSize_tty fd ws s = Some (Success, s') /\
        ts_notified s' = ts_notified s ++ [pg] /\
        forall slave : Z,
          fd_lookup slave (ts_system s) = Some (FTerminal dev) ->
          kernel_winsize slave (ts_system s') = Some g).
Proof.
  split.
  - intros s' H. rewrite SetWindowSize_tty_unfold in H.
    destruct (kernel_ioctl_cases fd TIOCSWINSZ ws (ts_system s))
      as [(dev & g & Hfd & Hws & _)|[e He]].
    + rewrite (tty_ioctl_set fd ws dev g s Hfd Hws) in H.
      cbn [fst snd] in H. injection H as H. subst s'.
      exists dev, g. cbn [ts_system ts_notified]. repeat split; auto.
      unfold kernel_winsize.
      rewrite (fd_lookup_files fd _ (ts_system s)) by reflexivity.
      rewrite Hfd. cbn [set_terminals sys_terminals]. apply lookup_insert_eq.
    + rewrite (tty_ioctl_fail fd TIOCSWINSZ ws e s He) in H.
      cbn [fst snd] in H. discriminate H.
  - intros dev pg g Hfd Hws Hpg.
    rewrite SetWindowSize_tty_unfold, (tty_ioctl_set fd ws dev g s Hfd Hws).
    eexists. split; [reflexivity|]. cbn [ts_system ts_notified]. split.
    + unfold owner. now rewrite Hpg.
    + intros slave Hslave. unfold kernel_winsize.
      rewrite (fd_lookup_files slave _ (ts_system s)) by reflexivity.
      rewrite Hslave. cbn [set_terminals sys_terminals]. apply lookup_insert_eq.
Qed.

(** ** Calls in sequence *)

(** X1. Any sequence of wrapper calls, under any operating system and from
    any state, returns; it makes exactly one control call per wrapper call,
    in the order and with the arguments given (repeated arguments included:
    the wrapper caches, merges and skips nothing), and each call is
    answered in the state the previous one left. *)
Theorem earlier_calls_one_control_call_each
    (os : handler) (h : list (Z * Z)) (s : system) :
  exec os (earlier_calls h) s = (control_calls h, Done tt (state_after os h s)).
Proof.
  revert s. induction h as [|[fd ws] h IH]; intros s.
  - reflexivity.
  - cbn [earlier_calls]. rewrite exec_bind, exec_terminal_set_winsize.
    cbn [fst snd]. rewrite IH. reflexivity.
Qed.

End Wrapper.

(** ** The statements at concrete states *)

Lemma set_window_size_then_query_witness :
  exists s' : system,
    SetWindowSize TIOCSWINSZ_linux (kernel_ioctl TIOCSWINSZ_linux) 4 4096 demo_system
    = Some (Success, s') /\
    kernel_winsize 4 s' = Some (Winsize 40 120 0 0).
Proof.
  apply (set_window_size_then_query TIOCSWINSZ_linux 4 4096 0%nat
           (Winsize 40 120 0 0) demo_system);
    [reflexivity | reflexivity | simpl; lia ..].
Defined.

Lemma set_window_size_idempotent_witness :
  exists s1 : system,
    SetWindowSize TIOCSWINSZ_macos (kernel_ioctl TIOCSWINSZ_macos) 5 4096 demo_system
    = Some (Success, s1) /\
    SetWindowSize TIOCSWINSZ_macos (kernel_ioctl TIOCSWINSZ_macos) 5 4096 s1
    = Some (Success, s1) /\
    result (kernel_ioctl TIOCSWINSZ_macos)
      (call r1 <- terminal_set_winsize TIOCSWINSZ_macos 5 4096;
       call r2 <- terminal_set_winsize TIOCSWINSZ_macos 5 4096;
       Return (r1, r2)) demo_system = Done (0, 0) s1 /\
    kernel_winsize 5 s1 = Some (Winsize 40 120 0 0).
Proof.
  apply (set_window_size_idempotent TIOCSWINSZ_macos 5 4096 0%nat
           (Winsize 40 120 0 0) demo_system); reflexivity.
Defined.

Lemma set_window_size_bad_descriptor_witness :
  SetWindowSize TIOCSWINSZ_linux (kernel_ioctl TIOCSWINSZ_linux) (-1) 4104 demo_system
  = Some (OsError EBADF, set_errno EBADF demo_system).
Proof.
  apply (set_window_size_bad_descriptor TIOCSWINSZ_linux 4104 demo_system).
  reflexivity.
Defined.

Lemma terminal_set_winsize_stateless_witness :
  result (kernel_ioctl TIOCSWINSZ_linux)
    (call _ <- earlier_calls TIOCSWINSZ_linux [(5, 4096); (3, 4104); (5, 4096)];
     terminal_set_winsize TIOCSWINSZ_linux 4 4104) demo_system =
  result (kernel_ioctl TIOCSWINSZ_linux)
    (call _ <- earlier_calls TIOCSWINSZ_linux [];
     terminal_set_winsize TIOCSWINSZ_linux 4 4104) (set_errno ENOTTY demo_resized) /\
  result (kernel_ioctl TIOCSWINSZ_linux)
    (call _ <- earlier_calls TIOCSWINSZ_linux [(5, 4096); (3, 4104); (5, 4096)];
     terminal_set_winsize TIOCSWINSZ_linux 4 4104) demo_system =
  Done 0 (set_errno ENOTTY demo_system).
Proof.
  refine (let H := _ in conj (proj1 H) (proj1 (proj2 H))).
  apply (terminal_set_winsize_stateless TIOCSWINSZ_linux
           (kernel_ioctl TIOCSWINSZ_linux)
           [(5, 4096); (3, 4104); (5, 4096)] [] 4 4104
           demo_system (set_errno ENOTTY demo_resized)
           (set_errno ENOTTY demo_resized)); reflexivity.
Defined.

Lemma set_window_size_notifies_witness :
  exists s' : tty_system,
    SetWindowSize_tty TIOCSWINSZ_linux 4 4096 demo_tty = Some (Success, s') /\
    ts_notified s' = [77%nat] /\
    kernel_winsize 5 (ts_system s') = Some (Winsize 40 120 0 0).
Proof.
  destruct (proj2 (set_window_size_notifies TIOCSWINSZ_linux 4 4096 demo_tty)
              0%nat 77%nat (Winsize 40 120 0 0)) as (s' & Hok & Hsent & Hslave);
    [reflexivity | reflexivity | reflexivity |].
  exists s'. split; [exact Hok|]. split; [exact Hsent|].
  apply Hslave. reflexivity.
Defined.

(** The kernel at work on the example state. *)

Example demo_regular_file :
  SetWindowSize TIOCSWINSZ_linux (kernel_ioctl TIOCSWINSZ_linux) 3 4096 demo_system
  = Some (OsError ENOTTY, set_errno ENOTTY demo_system).
Proof. reflexivity. Qed.

Example demo_closed_descriptor :
  SetWindowSize TIOCSWINSZ_linux (kernel_ioctl TIOCSWINSZ_linux) 7 4096 demo_system
  = Some (OsError EBADF, set_errno EBADF demo_system).
Proof. reflexivity. Qed.

Example demo_unmapped_geometry :
  SetWindowSize TIOCSWINSZ_linux (kernel_ioctl TIOCSWINSZ_linux) 4 0 demo_system
  = Some (OsError EFAULT, set_errno EFAULT demo_system).
Proof. reflexivity. Qed.

Example demo_other_end_sees_geometry :
  match SetWindowSize TIOCSWINSZ_linux (kernel_ioctl TIOCSWINSZ_linux) 4 4096 demo_system with
  | Some (Success, s') => kernel_winsize 5 s' = Some (Winsize 40 120 0 0)
  | _ => False
  end.
Proof. reflexivity. Qed.

(** A body that looked at the geometry before the call would not return on
    an unmapped pointer; the wrapper does. *)
Example demo_load_faults :
  result (kernel_ioctl TIOCSWINSZ_linux)
    (Load 0 (fun _ => terminal_set_winsize TIOCSWINSZ_linux 4 0)) demo_system
  = Fault /\
  result (kernel_ioctl TIOCSWINSZ_linux)
    (terminal_set_winsize TIOCSWINSZ_linux 4 0) demo_system
  = Done (-1) (set_errno EFAULT demo_system).
Proof. split; reflexivity. Qed.

(** A failed call notifies nobody; a terminal nobody owns has nobody to
    notify. *)
Example demo_failure_sends_nothing :
  SetWindowSize_tty TIOCSWINSZ_linux 3 4096 demo_tty
  = Some (OsError ENOTTY, on_system (set_errno ENOTTY) demo_tty).
Proof. reflexivity. Qed.

Example demo_no_owner_sends_nothing :
  SetWindowSize_tty TIOCSWINSZ_linux 4 4096 (TtySystem demo_system ∅ [])
  = Some (Success, TtySystem demo_resized ∅ []).
Proof. reflexivity. Qed.
